(** * Fallback orchestration of the education agent

    A shallow embedding of [education_agent/agent.py] and of the script
    [education_agent/app.py]: the invocation adapter [call_agent_async],
    the fallback [orchestrator], the entry point [call_agent] and the
    module-level setup block.

    The Python code is effectful: it prints, draws random identifiers,
    registers sessions, drives an asynchronous event stream and may raise.
    All of this is threaded through an explicit [World] by a state and
    exception monad [M].  Calls that leave the repository (the agent
    runtime, the cloud clients) are recorded in [trace] in the order in
    which they are made, so that statements about "before", "never" and
    "at most once" are statements about that list. *)

From Stdlib Require Import Ascii String.
From stdpp Require Import strings pretty gmap list.

Open Scope string_scope.
Open Scope list_scope.

(** ** Python values used by the program *)

(** Exceptions.  [except Exception] catches the first constructor only:
    [SystemExit] (raised by [exit()]) and [KeyboardInterrupt] derive from
    [BaseException]. *)
Inductive exn :=
| Exception (cls msg : string)
| SystemExit
| KeyboardInterrupt.

Definition is_Exception (x : exn) : bool :=
  match x with Exception _ _ => true | _ => false end.

(** [str(e)] *)
Definition str_exn (x : exn) : string :=
  match x with Exception _ msg => msg | _ => "" end.

Definition TypeError : exn :=
  Exception "TypeError" "argument of type 'NoneType' is not iterable".

(** The outcome of a call: a returned value or a raised exception. *)
Inductive result (A : Type) :=
| Ret (a : A)
| Exc (x : exn).
Arguments Ret {A} a.
Arguments Exc {A} x.

(** [types.Part]: only [text] is read; it is [None] for a part that
    carries something else than text. *)
Record Part := { text : option string }.

(** [types.Content(role=..., parts=[...])]; [parts] may be [None]. *)
Record Content := { role : option string; parts : option (list Part) }.

(** An event of the runner's stream: the answer of [is_final_response()]
    and the optional [content]. *)
Record Event := { is_final_response : bool; content : option Content }.

(** The asynchronous generator returned by [runner.run_async(...)], as
    seen by [async for]: each step yields an event, ends the iteration,
    or raises.  A generator that goes on for ever without a terminal event
    has no representation here: on it the loop of [call_agent_async] does
    not return. *)
Inductive stream :=
| Yield (event : Event) (rest : stream)
| StopAsyncIteration
| Throw (x : exn).

(** [yields es s]: the stream that emits [es] in order and goes on as [s]. *)
Definition yields (es : list Event) (s : stream) : stream :=
  foldr Yield s es.

(** ** Configuration objects *)

Inductive WriteMode := BLOCKED | PROTECTED | ALLOWED.

Inductive Tool :=
| BigQueryToolset (write_mode : WriteMode)
| google_search.

Record Agent := {
  model : string;
  name : string;
  description : string;
  instruction : string;
  tools : list Tool
}.

Record Runner := { agent : Agent; app_name : string }.

Definition PROJECT_ID := "qwiklabs-gcp-03-f038a3e064bd".
Definition LOCATION := "us-central1".
Definition DATASET_NAME := "education".
Definition APP_NAME := "education-orchestrator-app".
Definition MODEL := "gemini-2.5-flash".

Definition bq_tools : Tool := BigQueryToolset BLOCKED.

Definition newline : string := String (ascii_of_nat 10) EmptyString.

Definition DATA_AGENT_INSTR : string :=
  newline +:+
  "You are a highly specialized data analyst agent. Your ONLY capability is to query a BigQuery database."
  +:+ newline +:+
  "- You must always first inspect the schema of the dataset `"
  +:+ PROJECT_ID +:+ "." +:+ DATASET_NAME +:+ "` to see available tables."
  +:+ newline +:+
  "- Formulate and execute a `SELECT` SQL query based on the user's question."
  +:+ newline +:+
  "- Fully qualify every table name as `"
  +:+ PROJECT_ID +:+ "." +:+ DATASET_NAME +:+ ".<table>`."
  +:+ newline +:+
  "- Never perform DDL/DML operations (e.g., CREATE, ALTER, INSERT, DELETE)."
  +:+ newline +:+
  "- If your query returns a valid result, provide the answer and the SQL you used."
  +:+ newline +:+
  "- **CRITICAL**: If you determine that the database cannot answer the question (either because no relevant tables exist or the query returns no results), you MUST reply with ONLY the following exact phrase and nothing else: `NO_DATA_FOUND`"
  +:+ newline.

Definition SEARCH_AGENT_INSTR : string :=
  newline +:+
  "You are a highly specialized web search assistant. Your ONLY capability is to use Google Search to answer questions."
  +:+ newline +:+
  "- You cannot access any databases."
  +:+ newline +:+
  "- Provide a concise and helpful answer to the user's question based on the search results."
  +:+ newline.

Definition data_agent : Agent := {|
  model := MODEL;
  name := "DataAgent";
  description := "Exclusively queries a BigQuery dataset to find information.";
  instruction := DATA_AGENT_INSTR;
  tools := [bq_tools]
|}.

Definition search_agent : Agent := {|
  model := MODEL;
  name := "SearchAgent";
  description :=
    "Exclusively uses Google Search to find information from the web.";
  instruction := SEARCH_AGENT_INSTR;
  tools := [google_search]
|}.

Definition data_runner : Runner :=
  {| agent := data_agent; app_name := APP_NAME |}.
Definition search_runner : Runner :=
  {| agent := search_agent; app_name := APP_NAME |}.

#[global] Instance WriteMode_eq_dec : EqDecision WriteMode.
Proof. solve_decision. Defined.
#[global] Instance Tool_eq_dec : EqDecision Tool.
Proof. solve_decision. Defined.
#[global] Instance Agent_eq_dec : EqDecision Agent.
Proof. solve_decision. Defined.
#[global] Instance Runner_eq_dec : EqDecision Runner.
Proof. solve_decision. Defined.

(** ** The world *)

(** The fallible calls of the module-level setup, one per call site. *)
Inductive SetupStep :=
| StorageClient
| CreateBucket (bucket_name : string)
| VertexInit (staging_bucket : string)
| AuthDefault
| BigQueryClient
| QuerySelect1
| AuthDefaultTools.

(** What the program does to its collaborators, in order. *)
Inductive Action :=
| ASetup (step : SetupStep)
| ACreateSession (app user_id session_id : string)
| ARunAsync (runner : Runner) (user_id session_id : string) (msg : Content)
| ANext (runner : Runner) (event : Event).

(** A key of the session store: (application, user, session). *)
Abbreviation SessionKey := (string * string * string)%type.

Record World := {
  sessions : gset SessionKey;        (* InMemorySessionService *)
  uuid_next : nat;                   (* number of uuid4() calls so far *)
  stdout : list string;              (* lines printed *)
  trace : list Action;               (* calls to collaborators *)
  environ : gmap string string;      (* os.environ *)
  STAGING_BUCKET : option string;
  messages : list (string * option string)  (* st.session_state.messages *)
}.

Definition with_sessions (f : gset SessionKey → gset SessionKey) (w : World) :=
  {| sessions := f (sessions w); uuid_next := uuid_next w;
     stdout := stdout w; trace := trace w; environ := environ w;
     STAGING_BUCKET := STAGING_BUCKET w; messages := messages w |}.

Definition with_uuid_next (n : nat) (w : World) :=
  {| sessions := sessions w; uuid_next := n;
     stdout := stdout w; trace := trace w; environ := environ w;
     STAGING_BUCKET := STAGING_BUCKET w; messages := messages w |}.

Definition with_stdout (f : list string → list string) (w : World) :=
  {| sessions := sessions w; uuid_next := uuid_next w;
     stdout := f (stdout w); trace := trace w; environ := environ w;
     STAGING_BUCKET := STAGING_BUCKET w; messages := messages w |}.

Definition with_trace (f : list Action → list Action) (w : World) :=
  {| sessions := sessions w; uuid_next := uuid_next w;
     stdout := stdout w; trace := f (trace w); environ := environ w;
     STAGING_BUCKET := STAGING_BUCKET w; messages := messages w |}.

Definition with_environ (f : gmap string string → gmap string string)
    (w : World) :=
  {| sessions := sessions w; uuid_next := uuid_next w;
     stdout := stdout w; trace := trace w; environ := f (environ w);
     STAGING_BUCKET := STAGING_BUCKET w; messages := messages w |}.

Definition with_STAGING_BUCKET (b : option string) (w : World) :=
  {| sessions := sessions w; uuid_next := uuid_next w;
     stdout := stdout w; trace := trace w; environ := environ w;
     STAGING_BUCKET := b; messages := messages w |}.

Definition with_messages
    (f : list (string * option string) → list (string * option string))
    (w : World) :=
  {| sessions := sessions w; uuid_next := uuid_next w;
     stdout := stdout w; trace := trace w; environ := environ w;
     STAGING_BUCKET := STAGING_BUCKET w; messages := f (messages w) |}.

(** The world of a process that has just started. *)
Definition world0 : World :=
  {| sessions := ∅; uuid_next := 0; stdout := []; trace := [];
     environ := ∅; STAGING_BUCKET := None; messages := [] |}.

(** ** The monad of effects *)

Definition M (A : Type) : Type := World → result A * World.

Definition ret {A} (a : A) : M A := fun w => (Ret a, w).

Definition raise {A} (x : exn) : M A := fun w => (Exc x, w).

Definition bind {A B} (m : M A) (k : A → M B) : M B :=
  fun w =>
    match m w with
    | (Ret a, w') => k a w'
    | (Exc x, w') => (Exc x, w')
    end.

Notation "x <- m ;; k" := (bind m (fun x => k))
  (at level 100, m at next level, right associativity).
Notation "m ;;; k" := (bind m (fun _ => k))
  (at level 100, right associativity).

(** [try: body except Exception as e: handler e] *)
Definition try_except_Exception {A} (body : M A) (handler : exn → M A) : M A :=
  fun w =>
    match body w with
    | (Ret a, w') => (Ret a, w')
    | (Exc x, w') => if is_Exception x then handler x w' else (Exc x, w')
    end.

Definition print (line : string) : M unit :=
  fun w => (Ret tt, with_stdout (fun out => out ++ [line]) w).

Definition log (a : Action) : M unit :=
  fun w => (Ret tt, with_trace (fun t => t ++ [a]) w).

(** [exit()] raises [SystemExit]. *)
Definition exit {A} : M A := raise SystemExit.

(** ** String helpers *)

Definition dquote : string := String (ascii_of_nat 34) EmptyString.

(** [s.startswith(p)] *)
Fixpoint startswith (p s : string) : bool :=
  match p, s with
  | EmptyString, _ => true
  | String _ _, EmptyString => false
  | String a p', String b s' => if Ascii.eqb a b then startswith p' s' else false
  end.

(** [sub in s] on two strings: [sub] occurs in [s] at some position. *)
Fixpoint str_in (sub s : string) : bool :=
  startswith sub s ||
  match s with
  | EmptyString => false
  | String _ s' => str_in sub s'
  end.

(** [sub in v] where [v] may be [None]: Python raises [TypeError] then. *)
Definition py_in (sub : string) (v : option string) : M bool :=
  match v with
  | Some s => ret (str_in sub s)
  | None => raise TypeError
  end.

(** [x and y] used as a condition on an optional object and an optional
    list: an object is truthy, [None] and the empty list are not. *)
Definition truthy_parts (c : option Content) : option (list Part) :=
  match c with
  | None => None
  | Some c' =>
      match parts c' with
      | None | Some [] => None
      | Some ps => Some ps
      end
  end.

(** [uuid.hex] from [str(uuid)]: the same digits without the dashes. *)
Fixpoint hex (u : string) : string :=
  match u with
  | EmptyString => EmptyString
  | String c u' => if Ascii.eqb c "-"%char then hex u' else String c (hex u')
  end.

(** ** The program *)

Section Program.

(** The collaborators.  [uuid4_draw n] is [str(uuid4())] of the [n]-th
    call of the process; [setup_outcome] tells which setup calls raise;
    [backend] is the event stream the agent runtime produces for an
    invocation, which may depend on everything that happened before. *)
Variable uuid4_draw : nat → string.
Variable setup_outcome : SetupStep → option exn.
Variable backend : World → Runner → string → string → Content → stream.

Definition uuid4 : M string :=
  fun w => (Ret (uuid4_draw (uuid_next w)), with_uuid_next (S (uuid_next w)) w).

(** A fallible call of the setup block. *)
Definition external (step : SetupStep) : M unit :=
  log (ASetup step) ;;;
  match setup_outcome step with
  | None => ret tt
  | Some x => raise x
  end.

Definition setenv (k v : string) : M unit :=
  fun w => (Ret tt, with_environ (insert k v) w).

Definition set_STAGING_BUCKET (b : string) : M unit :=
  fun w => (Ret tt, with_STAGING_BUCKET (Some b) w).

(** [session_service.create_session(app_name=, user_id=, session_id=)] *)
Definition create_session (app user_id session_id : string) : M unit :=
  log (ACreateSession app user_id session_id) ;;;
  fun w => (Ret tt, with_sessions (union {[ (app, user_id, session_id) ]}) w).

(** [runner.run_async(user_id=, session_id=, new_message=)] *)
Definition run_async (runner : Runner) (user_id session_id : string)
    (new_message : Content) : M stream :=
  fun w =>
    (Ret (backend w runner user_id session_id new_message),
     with_trace (fun t => t ++ [ARunAsync runner user_id session_id new_message]) w).

(** *** The one-time setup (agent.py, lines 26-56) *)

Definition bucket_name_of (u : string) : string :=
  "agent-engine-staging-" +:+ substring 0 12 (hex u).

Definition setup : M unit :=
  try_except_Exception
    (print "Initializing GCP services..." ;;;
     external StorageClient ;;;
     u <- uuid4 ;;
     let bucket_name := bucket_name_of u in
     external (CreateBucket bucket_name) ;;;
     set_STAGING_BUCKET bucket_name ;;;
     print ("Successfully created and using staging bucket: gs://"
            +:+ bucket_name) ;;;
     external (VertexInit ("gs://" +:+ bucket_name)) ;;;
     print "Vertex AI SDK initialized." ;;;
     setenv "GOOGLE_GENAI_USE_VERTEXAI" "true" ;;;
     setenv "GOOGLE_CLOUD_PROJECT" PROJECT_ID ;;;
     setenv "GOOGLE_CLOUD_LOCATION" LOCATION ;;;
     print "Set environment variables for GenAI to use Vertex AI." ;;;
     external AuthDefault ;;;
     external BigQueryClient ;;;
     external QuerySelect1 ;;;
     print "BigQuery authentication and connection successful." ;;;
     print "Initialization complete.")
    (fun e =>
       print ("FATAL: An error occurred during setup: " +:+ str_exn e) ;;;
       print "Please ensure your GCP project is correctly configured and you have authenticated." ;;;
       exit).

(** The module body: the setup, then the tool configuration (line 61 calls
    [google.auth.default()] again, outside the [try]). *)
Definition agent_module : M unit :=
  setup ;;;
  external AuthDefaultTools.

(** *** The invocation adapter (agent.py, lines 110-120) *)

(** The [async for] loop of [call_agent_async], started on the stream
    [s] with the current value of [final_response_text]. *)
Fixpoint async_for (runner : Runner) (s : stream)
    (final_response_text : option string) : M (option string) :=
  match s with
  | StopAsyncIteration => ret final_response_text
  | Throw x => raise x
  | Yield event rest =>
      log (ANext runner event) ;;;
      if is_final_response event then
        match truthy_parts (content event) with
        | Some (p :: _) => ret (text p)
        | _ => ret final_response_text
        end
      else async_for runner rest final_response_text
  end.

Definition placeholder : string := "Agent did not produce a final response.".

Definition call_agent_async (query : string) (runner : Runner)
    (user_id session_id : string) : M (option string) :=
  let content :=
    {| role := Some "user"; parts := Some [ {| text := Some query |} ] |} in
  let final_response_text := Some placeholder in
  s <- run_async runner user_id session_id content ;;
  async_for runner s final_response_text.

(** *** The orchestrator (agent.py, lines 124-142) *)

Definition orchestrator (query user_id session_id : string)
    : M (option string) :=
  print ("[" +:+ session_id +:+ "] - User Query: "
         +:+ dquote +:+ query +:+ dquote) ;;;
  print ("[" +:+ session_id +:+ "] - Step 1: Consulting the DataAgent...") ;;;
  data_response <- call_agent_async query data_runner user_id session_id ;;
  found <- py_in "NO_DATA_FOUND" data_response ;;
  if found : bool then
    print ("[" +:+ session_id +:+
           "] - Signal 'NO_DATA_FOUND' received. Falling back to SearchAgent.") ;;;
    print ("[" +:+ session_id +:+ "] - Step 2: Consulting the SearchAgent...") ;;;
    search_response <-
      call_agent_async query search_runner user_id session_id ;;
    ret search_response
  else
    print ("[" +:+ session_id +:+
           "] - Success! DataAgent found a conclusive answer.") ;;;
    ret data_response.

(** *** The entry point (agent.py, lines 146-161) *)

Definition call_agent (query : string) : M (option string) :=
  let user_id := "webapp-user" in
  session_id <- uuid4 ;;
  create_session APP_NAME user_id session_id ;;;
  orchestrator query user_id session_id.

(** *** The script (app.py) *)

Definition append_message (m : string * option string) : M unit :=
  fun w => (Ret tt, with_messages (fun l => l ++ [m]) w).

(** One run of the script from process start; [user_query] is what
    [st.chat_input] returns. *)
Definition app_script (user_query : option string) : M unit :=
  agent_module ;;;
  match user_query with
  | None | Some "" => ret tt
  | Some q =>
      append_message ("user", Some q) ;;;
      response <- call_agent q ;;
      append_message ("assistant", response)
  end.

End Program.

(** ** Vocabulary of the statements *)

(** [sub] occurs somewhere in [s]. *)
Definition contains_substring (sub s : string) : Prop :=
  ∃ pre post, s = pre +:+ sub +:+ post.

Definition SENTINEL : string := "NO_DATA_FOUND".

(** The envelope [call_agent_async] wraps a query in. *)
Definition user_content (query : string) : Content :=
  {| role := Some "user"; parts := Some [ {| text := Some query |} ] |}.

(** A terminal event whose [content] is [None], or whose [parts] is [None]
    or the empty list. *)
Definition contentless (e : Event) : Prop :=
  content e = None ∨
  ∃ c, content e = Some c ∧ (parts c = None ∨ parts c = Some []).

(** The text content of an event: the [text] of its first part, when there
    is one. *)
Definition event_text (e : Event) : option string :=
  match content e with
  | Some c =>
      match parts c with
      | Some (p :: _) => text p
      | _ => None
      end
  | None => None
  end.

(** The actions a computation adds to the trace when run in [w]. *)
Definition performed {A} (m : M A) (w : World) : list Action :=
  drop (length (trace w)) (trace (m w).2).

Definition is_search_invocation (a : Action) : bool :=
  match a with
  | ARunAsync runner _ _ _ => bool_decide (runner = search_runner)
  | _ => false
  end.

Definition is_agent_invocation (a : Action) : bool :=
  match a with
  | ARunAsync _ _ _ _ | ANext _ _ => true
  | _ => false
  end.

Definition is_session_creation (a : Action) : bool :=
  match a with
  | ACreateSession _ _ _ => true
  | _ => false
  end.

(** Number of times the Search-Agent is invoked in a list of actions. *)
Definition search_invocations (t : list Action) : nat :=
  length (filter (λ a, is_search_invocation a = true) t).

(** The value and the events of the [async for] loop, as functions of the
    stream alone. *)
Definition final_text (e : Event) (default : option string) : option string :=
  match truthy_parts (content e) with
  | Some (p :: _) => text p
  | _ => default
  end.

Fixpoint async_for_value (s : stream) (default : option string)
    : result (option string) :=
  match s with
  | StopAsyncIteration => Ret default
  | Throw x => Exc x
  | Yield e rest =>
      if is_final_response e then Ret (final_text e default)
      else async_for_value rest default
  end.

Fixpoint async_for_events (s : stream) : list Event :=
  match s with
  | Yield e rest => e :: (if is_final_response e then [] else async_for_events rest)
  | _ => []
  end.

(** A non-terminal event. *)
Definition non_final (e : Event) : Prop := is_final_response e = false.

(** *** Points of an orchestrator call *)

Section Points.

Variable backend : World → Runner → string → string → Content → stream.

(** The world in which the orchestrator consults the Data-Agent. *)
Definition at_step1 (query session_id : string) (w : World) : World :=
  ((print ("[" +:+ session_id +:+ "] - User Query: "
           +:+ dquote +:+ query +:+ dquote) ;;;
    print ("[" +:+ session_id +:+ "] - Step 1: Consulting the DataAgent..."))
     w).2.

(** The invocation of the Data-Agent made by [orchestrator]. *)
Definition data_call (query user_id session_id : string) (w : World)
    : result (option string) * World :=
  call_agent_async backend query data_runner user_id session_id
    (at_step1 query session_id w).

(** The world in which the orchestrator, on the sentinel, consults the
    Search-Agent. *)
Definition at_step2 (query user_id session_id : string) (w : World) : World :=
  ((print ("[" +:+ session_id +:+
           "] - Signal 'NO_DATA_FOUND' received. Falling back to SearchAgent.") ;;;
    print ("[" +:+ session_id +:+ "] - Step 2: Consulting the SearchAgent..."))
     (data_call query user_id session_id w).2).2.

(** The invocation of the Search-Agent made by [orchestrator]. *)
Definition search_call (query user_id session_id : string) (w : World)
    : result (option string) * World :=
  call_agent_async backend query search_runner user_id session_id
    (at_step2 query user_id session_id w).

(** The world when the orchestrator returns the Data-Agent's answer. *)
Definition at_success (query user_id session_id : string) (w : World) : World :=
  (print ("[" +:+ session_id +:+
          "] - Success! DataAgent found a conclusive answer.")
     (data_call query user_id session_id w).2).2.

(** The events read from the Data-Agent and from the Search-Agent. *)
Definition data_events (query user_id session_id : string) (w : World)
    : list Event :=
  async_for_events
    (backend (at_step1 query session_id w) data_runner user_id session_id
       (user_content query)).

Definition search_events (query user_id session_id : string) (w : World)
    : list Event :=
  async_for_events
    (backend (at_step2 query user_id session_id w) search_runner user_id
       session_id (user_content query)).

(** What an invocation adds to the trace. *)
Definition invocation (runner : Runner) (query user_id session_id : string)
    (es : list Event) : list Action :=
  ARunAsync runner user_id session_id (user_content query)
    :: map (ANext runner) es.

End Points.

(** *** Sessions *)

(** An action that names the session [sid]. *)
Definition uses_session (sid : string) (a : Action) : Prop :=
  match a with
  | ACreateSession _ _ s | ARunAsync _ _ s _ => s = sid
  | _ => False
  end.

Section Sessions.

Variable uuid4_draw : nat → string.

(** Two calls of [uuid4()] never return the same identifier. *)
Definition draws_distinct : Prop :=
  ∀ i j, uuid4_draw i = uuid4_draw j → i = j.

(** Every session of the store was made by [call_agent] from an earlier
    draw. *)
Definition sessions_from_draws (w : World) : Prop :=
  ∀ k, k ∈ sessions w →
       ∃ i, (i < uuid_next w)%nat ∧ k = (APP_NAME, "webapp-user", uuid4_draw i).

(** The session identifier [call_agent] draws when run in [w]. *)
Definition session_of (w : World) : string := uuid4_draw (uuid_next w).

(** The world in which [call_agent] starts the orchestrator. *)
Definition in_session (w : World) : World :=
  ((session_id <- uuid4 uuid4_draw ;;
    create_session APP_NAME "webapp-user" session_id) w).2.

End Sessions.

(** *** Setup *)

Section SetupCalls.

Variable uuid4_draw : nat → string.

(** The fallible calls of the [try] block, in program order, for a
    process in world [w]. *)
Definition setup_calls (w : World) : list SetupStep :=
  let bucket_name := bucket_name_of (uuid4_draw (uuid_next w)) in
  [ StorageClient; CreateBucket bucket_name;
    VertexInit ("gs://" +:+ bucket_name);
    AuthDefault; BigQueryClient; QuerySelect1 ].

Definition FATAL (x : exn) : string :=
  "FATAL: An error occurred during setup: " +:+ str_exn x.

End SetupCalls.

(** *** Sample collaborators *)

Definition text_event (final : bool) (t : string) : Event :=
  {| is_final_response := final;
     content := Some {| role := Some "model";
                        parts := Some [ {| text := Some t |} ] |} |}.

(** A terminal event without content. *)
Definition empty_final_event : Event :=
  {| is_final_response := true; content := None |}.

(** A stream that answers [t]: a partial event, the terminal event, and an
    event that is never read. *)
Definition answering (t : string) : stream :=
  yields [text_event false "Working on it"; text_event true t;
          text_event true "late"] StopAsyncIteration.

(** A backend that gives one stream to the Data-Agent and one to the
    Search-Agent. *)
Definition per_agent (data search : stream)
    : World → Runner → string → string → Content → stream :=
  λ _ runner _ _ _, if decide (runner = data_runner) then data else search.

Definition ENROLLED : string :=
  "1,204 students enrolled in 2022. SQL: SELECT COUNT(*) ...".
Definition PARIS : string := "Paris is the capital of France.".
Definition NOT_ON_THE_WEB : string := "The web has NO_DATA_FOUND either.".

Definition backend_conclusive := per_agent (answering ENROLLED) (answering PARIS).
Definition backend_no_data := per_agent (answering SENTINEL) (answering PARIS).
Definition backend_echo :=
  per_agent (answering SENTINEL) (answering NOT_ON_THE_WEB).
Definition backend_silent :=
  per_agent (yields [text_event false "Working on it"] StopAsyncIteration)
    (answering PARIS).
Definition backend_contentless :=
  per_agent (Yield empty_final_event StopAsyncIteration) (answering PARIS).
Definition backend_unavailable :=
  per_agent (Throw (Exception "ServerError" "503 UNAVAILABLE"))
    (answering PARIS).

Definition uuid_sample (n : nat) : string :=
  "6f1c2a9e-51d3-4b7a-9c0e-" +:+ pretty n.

Definition setup_ok : SetupStep → option exn := λ _, None.

Definition setup_no_credentials : SetupStep → option exn :=
  λ step,
    match step with
    | StorageClient =>
        Some (Exception "DefaultCredentialsError"
                "Your default credentials were not found.")
    | _ => None
    end.

(** *** Vocabulary of the further properties *)

(** The lines a computation prints when run in [w]. *)
Definition printed {A} (m : M A) (w : World) : list string :=
  drop (length (stdout w)) (stdout (m w).2).

Definition is_data_invocation (a : Action) : bool :=
  match a with
  | ARunAsync runner _ _ _ => bool_decide (runner = data_runner)
  | _ => false
  end.

Definition is_run (a : Action) : bool :=
  match a with
  | ARunAsync _ _ _ _ => true
  | _ => false
  end.

(** Number of times the Data-Agent is invoked, and number of invocations
    of any agent, in a list of actions. *)
Definition data_invocations (t : list Action) : nat :=
  length (filter (λ a, is_data_invocation a = true) t).

Definition agent_runs (t : list Action) : nat :=
  length (filter (λ a, is_run a = true) t).


Definition LINE_QUERY (session_id query : string) : string :=
  "[" +:+ session_id +:+ "] - User Query: " +:+ dquote +:+ query +:+ dquote.

Definition LINE_STEP1 (session_id : string) : string :=
  "[" +:+ session_id +:+ "] - Step 1: Consulting the DataAgent...".

Definition LINE_SIGNAL (session_id : string) : string :=
  "[" +:+ session_id +:+
  "] - Signal 'NO_DATA_FOUND' received. Falling back to SearchAgent.".

Definition LINE_STEP2 (session_id : string) : string :=
  "[" +:+ session_id +:+ "] - Step 2: Consulting the SearchAgent...".

Definition LINE_SUCCESS (session_id : string) : string :=
  "[" +:+ session_id +:+ "] - Success! DataAgent found a conclusive answer.".

Section ModuleImport.

Variable uuid4_draw : nat → string.
Variable setup_outcome : SetupStep → option exn.

(** Every fallible call of the module body succeeds: the six of the [try]
    block and the [google.auth.default()] of the tool configuration. *)
Definition setup_succeeds (w : World) : Prop :=
  Forall (λ s, setup_outcome s = None)
    (setup_calls uuid4_draw w ++ [AuthDefaultTools]).

(** The world once the module [agent] is imported. *)
Definition after_import (w : World) : World :=
  (agent_module uuid4_draw setup_outcome w).2.

(** The world in which the script calls [call_agent] for [query]. *)
Definition at_submit (query : string) (w : World) : World :=
  (append_message ("user", Some query) (after_import w)).2.

End ModuleImport.

(** Further sample collaborators. *)
Definition no_text_event : Event :=
  {| is_final_response := true;
     content := Some {| role := Some "model";
                        parts := Some [ {| text := None |} ] |} |}.

Definition backend_no_text :=
  per_agent (Yield no_text_event StopAsyncIteration) (answering PARIS).

Definition backend_broken_stream :=
  per_agent
    (yields [text_event false "Working on it"]
       (Throw (Exception "ServerError" "503 UNAVAILABLE")))
    (answering PARIS).

Definition backend_search_silent :=
  per_agent (answering SENTINEL)
    (yields [text_event false "Searching"] StopAsyncIteration).


Definition setup_tools_auth_down : SetupStep → option exn :=
  λ step,
    match step with
    | AuthDefaultTools =>
        Some (Exception "DefaultCredentialsError"
                "Your default credentials were not found.")
    | _ => None
    end.

Definition backend_same_answer :=
  per_agent (answering PARIS)
    (Yield (text_event true PARIS)
       (Throw (Exception "ServerError" "503 UNAVAILABLE"))).

(** ** Strings *)

Lemma append_cons a p t : String a p +:+ t = String a (p +:+ t).
Proof. reflexivity. Qed.

Lemma startswith_spec p s :
  startswith p s = true ↔ ∃ t, s = p +:+ t.
Proof.
  revert s. induction p as [|a p IH]; intros s; simpl.
  - split; [intros _; by exists s | done].
  - destruct s as [|b s]; simpl.
    + split; [done | intros [t Ht]; rewrite append_cons in Ht; discriminate].
    + destruct (Ascii.eqb_spec a b) as [->|Hne].
      * rewrite IH. split; intros [t Ht]; exists t;
          rewrite append_cons in *; congruence.
      * split; [done | intros [t Ht]; rewrite append_cons in Ht; congruence].
Qed.

Lemma str_in_spec sub s :
  str_in sub s = true ↔ contains_substring sub s.
Proof.
  unfold contains_substring. induction s as [|b s IH]; simpl.
  - rewrite orb_false_r, startswith_spec. split.
    + intros [t Ht]. by exists "", t.
    + intros ([|c pre] & post & H).
      * by exists post.
      * rewrite append_cons in H. discriminate.
  - rewrite orb_true_iff, startswith_spec, IH. split.
    + intros [[t Ht] | (pre & post & H)].
      * by exists "", t.
      * exists (String b pre), post. rewrite append_cons. by rewrite H.
    + intros ([|c pre] & post & H).
      * left. by exists post.
      * right. exists pre, post. rewrite append_cons in H. congruence.
Qed.

Lemma str_in_false sub s :
  str_in sub s = false ↔ ¬ contains_substring sub s.
Proof.
  rewrite <- str_in_spec. destruct (str_in sub s); split; congruence.
Qed.

(** ** Streams *)

Lemma async_for_value_yields pre s d :
  Forall non_final pre →
  async_for_value (yields pre s) d = async_for_value s d.
Proof.
  induction 1 as [|e pre He _ IH]; simpl; [done|].
  unfold non_final in He. by rewrite He.
Qed.

Lemma async_for_events_yields pre s :
  Forall non_final pre →
  async_for_events (yields pre s) = pre ++ async_for_events s.
Proof.
  induction 1 as [|e pre He _ IH]; simpl; [done|].
  unfold non_final in He. by rewrite He, IH.
Qed.

Lemma final_text_contentless e d :
  contentless e → final_text e d = d.
Proof.
  unfold final_text, truthy_parts.
  intros [-> | (c & -> & [-> | ->])]; done.
Qed.

Lemma final_text_parts e c p ps d :
  content e = Some c → parts c = Some (p :: ps) → final_text e d = text p.
Proof. unfold final_text, truthy_parts. by intros -> ->. Qed.

(** Every event either has a first part or is contentless. *)
Lemma event_parts_dec e :
  contentless e ∨ ∃ c p ps, content e = Some c ∧ parts c = Some (p :: ps).
Proof.
  unfold contentless. destruct (content e) as [c|]; [|by left; left].
  destruct (parts c) as [[|p ps]|] eqn:Hp.
  - left; right; eauto.
  - right; eauto 6.
  - left; right; eauto.
Qed.

(** ** Running the monad *)

Lemma with_trace_app t1 t2 w :
  with_trace (λ t, t ++ t2) (with_trace (λ t, t ++ t1) w)
  = with_trace (λ t, t ++ (t1 ++ t2)) w.
Proof. unfold with_trace; simpl. by rewrite <- (assoc_L (++)). Qed.

Lemma with_trace_nil w : with_trace (λ t, t ++ []) w = w.
Proof. destruct w; unfold with_trace; simpl. by rewrite app_nil_r. Qed.

Lemma performed_app {A} (m : M A) w delta :
  trace (m w).2 = trace w ++ delta → performed m w = delta.
Proof. unfold performed. intros ->. by rewrite drop_app_length. Qed.

Section Adapter.

Variable backend : World → Runner → string → string → Content → stream.

Lemma async_for_run runner s d w :
  async_for runner s d w
  = (async_for_value s d,
     with_trace (λ t, t ++ map (ANext runner) (async_for_events s)) w).
Proof.
  revert w. induction s as [e rest IH| |x]; intros w; simpl.
  - unfold bind, log; simpl. destruct (is_final_response e) eqn:He.
    + unfold final_text.
      by destruct (truthy_parts (content e)) as [[|p ps]|].
    + rewrite IH. by rewrite with_trace_app.
  - unfold ret. by rewrite with_trace_nil.
  - unfold raise. by rewrite with_trace_nil.
Qed.

(** [call_agent_async] in one equation: the value is read off the stream
    the backend produces, and the trace grows by the invocation followed
    by the events the loop pulled. *)
Lemma call_agent_async_run query runner user_id session_id w :
  let s := backend w runner user_id session_id (user_content query) in
  call_agent_async backend query runner user_id session_id w
  = (async_for_value s (Some placeholder),
     with_trace
       (λ t, t ++ ARunAsync runner user_id session_id (user_content query)
               :: map (ANext runner) (async_for_events s)) w).
Proof.
  simpl. unfold call_agent_async, bind, run_async.
  rewrite async_for_run. f_equal.
  by rewrite with_trace_app.
Qed.

End Adapter.

(** ** The invocation adapter *)

Section AdapterClaims.

Variable backend : World → Runner → string → string → Content → stream.


(** C5, as the code has it.  When the stream contains a terminal event,
    the events are read in emission order up to the first terminal event
    and no further, whatever follows it.  When that event has content with
    a non-empty list of parts, the answer is the text of its first part;
    when it has not, the answer is the placeholder. *)
Theorem C5_first_terminal_event_text
    query runner user_id session_id w pre e rest :
  Forall non_final pre →
  is_final_response e = true →
  backend w runner user_id session_id (user_content query)
    = yields pre (Yield e rest) →
  performed (call_agent_async backend query runner user_id session_id) w
    = ARunAsync runner user_id session_id (user_content query)
        :: map (ANext runner) (pre ++ [e])
  ∧ (∀ c p ps,
       content e = Some c → parts c = Some (p :: ps) →
       (call_agent_async backend query runner user_id session_id w).1
         = Ret (event_text e)
       ∧ event_text e = text p)
  ∧ (contentless e →
     (call_agent_async backend query runner user_id session_id w).1
       = Ret (Some placeholder)).
Proof.
  intros Hpre He Hs. split; [|split].
  - apply performed_app. rewrite call_agent_async_run; simpl.
    rewrite Hs, async_for_events_yields by done. simpl. by rewrite He.
  - intros c p ps Hc Hp.
    assert (event_text e = text p) as Ht
      by (unfold event_text; by rewrite Hc, Hp).
    split; [|done].
    rewrite call_agent_async_run; simpl. rewrite Hs.
    rewrite async_for_value_yields by done. simpl. rewrite He, Ht.
    by rewrite (final_text_parts e c p ps).
  - intros Hc. rewrite call_agent_async_run; simpl. rewrite Hs.
    rewrite async_for_value_yields by done. simpl. rewrite He.
    by rewrite final_text_contentless.
Qed.

(** C10.  When the first terminal event of the stream has no content, or
    content whose list of parts is missing or empty, [call_agent_async]
    returns the placeholder, as it does when no terminal event arrives. *)
Theorem C10_contentless_terminal_event_gives_placeholder
    query runner user_id session_id w pre e rest :
  Forall non_final pre →
  is_final_response e = true →
  contentless e →
  backend w runner user_id session_id (user_content query)
    = yields pre (Yield e rest) →
  (call_agent_async backend query runner user_id session_id w).1
    = Ret (Some placeholder).
Proof.
  intros Hpre He Hc Hs. rewrite call_agent_async_run; simpl. rewrite Hs.
  rewrite async_for_value_yields by done. simpl. rewrite He.
  by rewrite final_text_contentless.
Qed.

End AdapterClaims.

(** ** The orchestrator *)

Section Orchestrator.

Variable backend : World → Runner → string → string → Content → stream.

Lemma orchestrator_run query user_id session_id w :
  orchestrator backend query user_id session_id w
  = match (data_call backend query user_id session_id w).1 with
    | Exc x => (Exc x, (data_call backend query user_id session_id w).2)
    | Ret None => (Exc TypeError, (data_call backend query user_id session_id w).2)
    | Ret (Some A) =>
        if str_in SENTINEL A then search_call backend query user_id session_id w
        else (Ret (Some A), at_success backend query user_id session_id w)
    end.
Proof.
  unfold orchestrator, search_call, at_success, at_step2, data_call, at_step1.
  unfold bind at 1 2 3. simpl.
  destruct (call_agent_async _ _ _ _ _ _) as [[[A|]|x] w1]; simpl; try done.
  unfold bind at 1; simpl. fold SENTINEL.
  destruct (str_in SENTINEL A); simpl; [|done].
  unfold bind; simpl.
  by destruct (call_agent_async _ _ _ _ _ _) as [[?|?] ?].
Qed.

Lemma trace_at_step1 query session_id w : trace (at_step1 query session_id w) = trace w.
Proof. done. Qed.

Lemma trace_data_call query user_id session_id w :
  trace (data_call backend query user_id session_id w).2
  = trace w ++ invocation data_runner query user_id session_id
                 (data_events backend query user_id session_id w).
Proof. unfold data_call. by rewrite call_agent_async_run. Qed.

Lemma trace_search_call query user_id session_id w :
  trace (search_call backend query user_id session_id w).2
  = trace w ++ invocation data_runner query user_id session_id
                 (data_events backend query user_id session_id w)
            ++ invocation search_runner query user_id session_id
                 (search_events backend query user_id session_id w).
Proof.
  unfold search_call. rewrite call_agent_async_run. simpl.
  change (trace (at_step2 backend query user_id session_id w))
    with (trace (data_call backend query user_id session_id w).2).
  by rewrite trace_data_call, <- (assoc_L (++)).
Qed.

Lemma trace_orchestrator query user_id session_id w :
  trace (orchestrator backend query user_id session_id w).2
  = trace w
    ++ invocation data_runner query user_id session_id
         (data_events backend query user_id session_id w)
    ++ match (data_call backend query user_id session_id w).1 with
       | Ret (Some A) =>
           if str_in SENTINEL A
           then invocation search_runner query user_id session_id
                  (search_events backend query user_id session_id w)
           else []
       | _ => []
       end.
Proof.
  rewrite orchestrator_run.
  destruct (data_call backend query user_id session_id w).1 as [[A|]|x] eqn:Hd;
    simpl; rewrite ?app_nil_r; try apply trace_data_call.
  destruct (str_in SENTINEL A); simpl; rewrite ?app_nil_r.
  - apply trace_search_call.
  - apply trace_data_call.
Qed.

Lemma performed_orchestrator query user_id session_id w :
  performed (orchestrator backend query user_id session_id) w
  = invocation data_runner query user_id session_id
      (data_events backend query user_id session_id w)
    ++ match (data_call backend query user_id session_id w).1 with
       | Ret (Some A) =>
           if str_in SENTINEL A
           then invocation search_runner query user_id session_id
                  (search_events backend query user_id session_id w)
           else []
       | _ => []
       end.
Proof. apply performed_app, trace_orchestrator. Qed.

Lemma Forall_invocation (P : Action → Prop) runner query user_id session_id es :
  P (ARunAsync runner user_id session_id (user_content query)) →
  (∀ e, P (ANext runner e)) →
  Forall P (invocation runner query user_id session_id es).
Proof.
  intros Hrun Hnext. constructor; [done|].
  apply Forall_map, Forall_forall. intros e _. apply Hnext.
Qed.

(** Every action of an orchestrator call is an invocation of one of the
    two runners, for the given query, user and session, or an event read
    from one of them. *)
Lemma Forall_performed_orchestrator (P : Action → Prop)
    query user_id session_id w :
  (∀ runner, P (ARunAsync runner user_id session_id (user_content query))) →
  (∀ runner e, P (ANext runner e)) →
  Forall P (performed (orchestrator backend query user_id session_id) w).
Proof.
  intros Hrun Hnext. rewrite performed_orchestrator.
  apply Forall_app. split; [by apply Forall_invocation|].
  destruct (data_call backend query user_id session_id w).1 as [[A|]|x];
    try constructor.
  destruct (str_in SENTINEL A); [by apply Forall_invocation|constructor].
Qed.

Lemma search_invocations_app t1 t2 :
  search_invocations (t1 ++ t2) = search_invocations t1 + search_invocations t2.
Proof. unfold search_invocations. by rewrite filter_app, length_app. Qed.

Lemma search_invocations_next runner es :
  search_invocations (map (ANext runner) es) = 0.
Proof. unfold search_invocations. by induction es. Qed.

Lemma search_invocations_data query user_id session_id es :
  search_invocations (invocation data_runner query user_id session_id es) = 0.
Proof.
  unfold invocation. change (?a :: ?l) with ([a] ++ l).
  by rewrite search_invocations_app, search_invocations_next.
Qed.

Lemma search_invocations_search query user_id session_id es :
  search_invocations (invocation search_runner query user_id session_id es) = 1.
Proof.
  unfold invocation. change (?a :: ?l) with ([a] ++ l).
  by rewrite search_invocations_app, search_invocations_next.
Qed.

(** C1.  When the Data-Agent's answer [A] does not contain
    [NO_DATA_FOUND], [orchestrator] returns exactly [A]; the only
    invocation it makes is the one of the Data-Agent, and the
    Search-Agent is not invoked. *)
Theorem C1_conclusive_answer_returned_unchanged
    query user_id session_id w A :
  (data_call backend query user_id session_id w).1 = Ret (Some A) →
  ¬ contains_substring SENTINEL A →
  (orchestrator backend query user_id session_id w).1 = Ret (Some A)
  ∧ performed (orchestrator backend query user_id session_id) w
    = invocation data_runner query user_id session_id
        (data_events backend query user_id session_id w)
  ∧ search_invocations
      (performed (orchestrator backend query user_id session_id) w) = 0.
Proof.
  intros Hd HA. apply str_in_false in HA.
  rewrite performed_orchestrator, orchestrator_run, Hd, HA. simpl.
  rewrite app_nil_r. split; [done|split; [done|]].
  apply search_invocations_data.
Qed.

(** C2.  When the Data-Agent's answer contains [NO_DATA_FOUND] anywhere,
    [orchestrator] invokes the Search-Agent with the same query, user and
    session as the Data-Agent, and its outcome is the outcome of that
    invocation: the Data-Agent's answer does not appear in the result. *)
Theorem C2_sentinel_escalates_to_search
    query user_id session_id w A :
  (data_call backend query user_id session_id w).1 = Ret (Some A) →
  contains_substring SENTINEL A →
  orchestrator backend query user_id session_id w
    = search_call backend query user_id session_id w
  ∧ performed (orchestrator backend query user_id session_id) w
    = ARunAsync data_runner user_id session_id (user_content query)
        :: map (ANext data_runner) (data_events backend query user_id session_id w)
      ++ ARunAsync search_runner user_id session_id (user_content query)
        :: map (ANext search_runner)
             (search_events backend query user_id session_id w).
Proof.
  intros Hd HA. apply str_in_spec in HA.
  rewrite performed_orchestrator, orchestrator_run, Hd, HA. done.
Qed.

(** C3.  One call of [orchestrator] invokes the Search-Agent at most
    once, whatever the agents answer and whether or not a call raises.
    After an escalation the Search-Agent's outcome is final as it is:
    an answer that itself contains [NO_DATA_FOUND] is returned without a
    second escalation. *)
Theorem C3_at_most_one_escalation query user_id session_id w :
  (search_invocations
     (performed (orchestrator backend query user_id session_id) w) ≤ 1)%nat
  ∧ ∀ A S,
      (data_call backend query user_id session_id w).1 = Ret (Some A) →
      contains_substring SENTINEL A →
      (search_call backend query user_id session_id w).1 = Ret (Some S) →
      contains_substring SENTINEL S →
      (orchestrator backend query user_id session_id w).1 = Ret (Some S)
      ∧ search_invocations
          (performed (orchestrator backend query user_id session_id) w) = 1.
Proof.
  rewrite performed_orchestrator, search_invocations_app,
    search_invocations_data. split.
  - destruct (data_call backend query user_id session_id w).1 as [[A|]|x]; simpl;
      try (cbn; lia).
    destruct (str_in SENTINEL A); [|cbn; lia].
    by rewrite search_invocations_search.
  - intros A S Hd HA Hs _. apply str_in_spec in HA.
    rewrite orchestrator_run, Hd, HA, Hs.
    split; [done|]. by rewrite search_invocations_search.
Qed.

(** C8.  The actions of one call of [orchestrator] are the invocation of
    the Data-Agent with all the events read from it, followed, only when
    the Data-Agent's call has returned an answer, by the invocation of
    the Search-Agent with its events.  Both invocations carry the same
    user identifier and session identifier. *)
Theorem C8_invocations_sequential_same_session query user_id session_id w :
  let primary :=
    ARunAsync data_runner user_id session_id (user_content query)
      :: map (ANext data_runner) (data_events backend query user_id session_id w) in
  let secondary :=
    ARunAsync search_runner user_id session_id (user_content query)
      :: map (ANext search_runner)
           (search_events backend query user_id session_id w) in
  performed (orchestrator backend query user_id session_id) w = primary
  ∨ (∃ A, (data_call backend query user_id session_id w).1 = Ret (Some A)
          ∧ performed (orchestrator backend query user_id session_id) w
            = primary ++ secondary).
Proof.
  simpl. rewrite performed_orchestrator.
  destruct (data_call backend query user_id session_id w).1 as [[A|]|x] eqn:Hd;
    try (left; apply app_nil_r).
  destruct (str_in SENTINEL A).
  - right. by exists A.
  - left. apply app_nil_r.
Qed.

End Orchestrator.

(** ** The entry point *)

Section EntryPoint.

Variable uuid4_draw : nat → string.
Variable backend : World → Runner → string → string → Content → stream.

Lemma call_agent_run query w :
  call_agent uuid4_draw backend query w
  = orchestrator backend query "webapp-user" (session_of uuid4_draw w) (in_session uuid4_draw w).
Proof. done. Qed.

Lemma trace_in_session w :
  trace (in_session uuid4_draw w)
  = trace w ++ [ACreateSession APP_NAME "webapp-user" (session_of uuid4_draw w)].
Proof. done. Qed.

Lemma sessions_in_session w :
  sessions (in_session uuid4_draw w)
  = {[ (APP_NAME, "webapp-user", session_of uuid4_draw w) ]} ∪ sessions w.
Proof. done. Qed.

Lemma uuid_next_in_session w : uuid_next (in_session uuid4_draw w) = S (uuid_next w).
Proof. done. Qed.

(** The adapter and the orchestrator touch neither the session store nor
    the source of identifiers. *)
Lemma call_agent_async_frame query runner user_id session_id w :
  let w' := (call_agent_async backend query runner user_id session_id w).2 in
  sessions w' = sessions w ∧ uuid_next w' = uuid_next w
  ∧ messages w' = messages w.
Proof. simpl. by rewrite call_agent_async_run. Qed.

Lemma orchestrator_frame query user_id session_id w :
  let w' := (orchestrator backend query user_id session_id w).2 in
  sessions w' = sessions w ∧ uuid_next w' = uuid_next w
  ∧ messages w' = messages w.
Proof.
  simpl. rewrite orchestrator_run.
  pose proof (call_agent_async_frame query data_runner user_id session_id
                (at_step1 query session_id w)) as Hd.
  pose proof (call_agent_async_frame query search_runner user_id session_id
                (at_step2 backend query user_id session_id w)) as Hs.
  simpl in Hd, Hs. fold (data_call backend query user_id session_id w) in Hd.
  fold (search_call backend query user_id session_id w) in Hs.
  assert (sessions (at_step2 backend query user_id session_id w) = sessions w
          ∧ uuid_next (at_step2 backend query user_id session_id w) = uuid_next w
          ∧ messages (at_step2 backend query user_id session_id w) = messages w)
    as H2 by (unfold at_step2; simpl; exact Hd).
  destruct (data_call backend query user_id session_id w).1 as [[A|]|x];
    simpl; try exact Hd.
  destruct (str_in SENTINEL A); simpl; [|exact Hd].
  destruct Hs as (-> & -> & ->). exact H2.
Qed.

Lemma performed_call_agent query w :
  performed (call_agent uuid4_draw backend query) w
  = ACreateSession APP_NAME "webapp-user" (session_of uuid4_draw w)
      :: performed (orchestrator backend query "webapp-user" (session_of uuid4_draw w))
           (in_session uuid4_draw w).
Proof.
  apply performed_app.
  rewrite call_agent_run, trace_orchestrator, performed_orchestrator.
  by rewrite trace_in_session, <- (assoc_L (++)).
Qed.

(** C7.  One call of [call_agent] creates exactly one session, as its
    first action and so before any agent is invoked: for the application,
    the fixed user [webapp-user] and a session identifier newly drawn
    from [uuid4()].  With identifiers that never repeat, the session is
    not in the store beforehand, every invocation of the call uses it,
    and no later call creates or uses it. *)
Theorem C7_one_fresh_session_per_call query w :
  draws_distinct uuid4_draw →
  sessions_from_draws uuid4_draw w →
  let sid := session_of uuid4_draw w in
  let w' := (call_agent uuid4_draw backend query w).2 in
  ((APP_NAME, "webapp-user", sid) ∉ sessions w)
  ∧ (∃ rest,
       performed (call_agent uuid4_draw backend query) w
         = ACreateSession APP_NAME "webapp-user" sid :: rest
       ∧ Forall (λ a, is_session_creation a = false) rest
       ∧ Forall (λ a, ∀ r u s m, a = ARunAsync r u s m →
                      u = "webapp-user" ∧ s = sid) rest)
  ∧ (sessions w' = {[ (APP_NAME, "webapp-user", sid) ]} ∪ sessions w)
  ∧ sessions_from_draws uuid4_draw w'
  ∧ ∀ query2 w2, (uuid_next w' ≤ uuid_next w2)%nat →
      Forall (λ a, ¬ uses_session sid a)
        (performed (call_agent uuid4_draw backend query2) w2).
Proof.
  intros Hinj Hinv. simpl.
  destruct (orchestrator_frame query "webapp-user" (session_of uuid4_draw w)
              (in_session uuid4_draw w)) as (Hs & Hu & _).
  rewrite call_agent_run, Hs, Hu, sessions_in_session, uuid_next_in_session.
  split; [|split; [|split; [|split]]].
  - intros Hin. destruct (Hinv _ Hin) as (i & Hi & Heq).
    injection Heq as Heq. apply Hinj in Heq. unfold session_of in *. lia.
  - eexists. split; [apply performed_call_agent|].
    split; apply Forall_performed_orchestrator; try done.
    intros runner r u s m [= _ -> -> _]. done.
  - done.
  - unfold sessions_from_draws.
    rewrite Hs, Hu, sessions_in_session, uuid_next_in_session.
    intros k Hk. apply elem_of_union in Hk as [Hk|Hk].
    + apply elem_of_singleton in Hk as ->. exists (uuid_next w).
      split; [lia|done].
    + destruct (Hinv _ Hk) as (i & Hi & ->). exists i. split; [lia|done].
  - intros query2 w2 Hlater. rewrite performed_call_agent.
    assert (session_of uuid4_draw w2 ≠ session_of uuid4_draw w) as Hne.
    { unfold session_of. intros Heq. apply Hinj in Heq. lia. }
    constructor; [done|].
    apply Forall_performed_orchestrator; simpl; [done|tauto].
Qed.

(** C6, as the code has it.  [call_agent] returns a string whenever the
    invocations it makes return text: the Data-Agent's answer when that
    answer has no sentinel, the Search-Agent's answer otherwise.  An
    exception raised by the event stream of either agent is not caught:
    it reaches the caller as it is.  The result carries no status: a
    call that escalated and a call that did not return the same value
    when the final text is the same. *)
Theorem C6_string_result_or_propagated_exception query w :
  let sid := session_of uuid4_draw w in
  let w1 := in_session uuid4_draw w in
  let data := (data_call backend query "webapp-user" sid w1).1 in
  let search := (search_call backend query "webapp-user" sid w1).1 in
  let final := (call_agent uuid4_draw backend query w).1 in
  (∀ A, data = Ret (Some A) → ¬ contains_substring SENTINEL A →
        final = Ret (Some A))
  ∧ (∀ A S, data = Ret (Some A) → contains_substring SENTINEL A →
            search = Ret (Some S) → final = Ret (Some S))
  ∧ (∀ x, data = Exc x → final = Exc x)
  ∧ (∀ A x, data = Ret (Some A) → contains_substring SENTINEL A →
            search = Exc x → final = Exc x)
  ∧ (∀ query2 w2 A T,
       data = Ret (Some T) → ¬ contains_substring SENTINEL T →
       (data_call backend query2 "webapp-user" (session_of uuid4_draw w2)
          (in_session uuid4_draw w2)).1 = Ret (Some A) →
       contains_substring SENTINEL A →
       (search_call backend query2 "webapp-user" (session_of uuid4_draw w2)
          (in_session uuid4_draw w2)).1 = Ret (Some T) →
       (call_agent uuid4_draw backend query2 w2).1 = final).
Proof.
  simpl. rewrite call_agent_run, orchestrator_run.
  split; [|split; [|split; [|split]]].
  - intros A -> HA. apply str_in_false in HA. by rewrite HA.
  - intros A S -> HA Hs. apply str_in_spec in HA. by rewrite HA.
  - by intros x ->.
  - intros A x -> HA Hs. apply str_in_spec in HA. by rewrite HA.
  - intros query2 w2 A T -> HT Hd2 HA Hs2.
    apply str_in_false in HT. apply str_in_spec in HA.
    by rewrite call_agent_run, orchestrator_run, Hd2, HA, Hs2, HT.
Qed.

End EntryPoint.

(** ** Startup *)

Section Startup.

Variable uuid4_draw : nat → string.
Variable setup_outcome : SetupStep → option exn.
Variable backend : World → Runner → string → string → Content → stream.

Lemma external_run step w :
  external setup_outcome step w
  = (match setup_outcome step with None => Ret tt | Some x => Exc x end,
     with_trace (λ t, t ++ [ASetup step]) w).
Proof. unfold external, bind, log; simpl. by destruct (setup_outcome step). Qed.

Ltac run_setup :=
  unfold app_script, agent_module, setup, try_except_Exception, bind,
    performed, uuid4, print, set_STAGING_BUCKET, setenv, exit, raise, ret, FATAL;
  simpl;
  repeat (rewrite external_run; simpl;
          repeat match goal with
                 | H : setup_outcome _ = _ |- _ => rewrite H; simpl
                 end).

(** C9.  When a call of the setup block fails, the calls before it having
    succeeded, the script ends there by an exception: [SystemExit] after
    the FATAL message when the failure is an [Exception], the failure
    itself otherwise.  No later setup call is attempted, no session is
    created, no agent is invoked and no message is recorded. *)
Theorem C9_setup_failure_terminates user_query w pre step post x :
  setup_calls uuid4_draw w = pre ++ step :: post →
  Forall (λ s, setup_outcome s = None) pre →
  setup_outcome step = Some x →
  let run := app_script uuid4_draw setup_outcome backend user_query w in
  run.1 = Exc (if is_Exception x then SystemExit else x)
  ∧ performed (app_script uuid4_draw setup_outcome backend user_query) w
    = map ASetup (pre ++ [step])
  ∧ Forall (λ a, is_agent_invocation a = false ∧ is_session_creation a = false)
      (performed (app_script uuid4_draw setup_outcome backend user_query) w)
  ∧ sessions run.2 = sessions w
  ∧ messages run.2 = messages w
  ∧ (is_Exception x = true → FATAL x ∈ stdout run.2).
Proof.
  intros Hcalls Hpre Hstep. unfold setup_calls in Hcalls.
  destruct pre as [|s1 [|s2 [|s3 [|s4 [|s5 [|s6 pre]]]]]];
    simplify_eq/=;
    repeat match goal with
           | H : Forall _ (_ :: _) |- _ =>
               apply Forall_cons in H as [? H]
           end;
    try (by destruct pre);
    (split; [|split; [|split; [|split; [|split]]]]);
    run_setup; destruct (is_Exception x) eqn:Hx; simpl;
    rewrite <- ?(assoc_L (++)); simpl; rewrite ?drop_app_length;
    try done;
    try (by repeat constructor);
    try (intros _; set_solver).
Qed.

(** The second [google.auth.default()], after the [try] block, is not
    guarded: its failure ends the script as well, without the FATAL
    message. *)
Lemma tool_configuration_failure_terminates user_query w x :
  Forall (λ s, setup_outcome s = None) (setup_calls uuid4_draw w) →
  setup_outcome AuthDefaultTools = Some x →
  (app_script uuid4_draw setup_outcome backend user_query w).1 = Exc x
  ∧ performed (app_script uuid4_draw setup_outcome backend user_query) w
    = map ASetup (setup_calls uuid4_draw w ++ [AuthDefaultTools]).
Proof.
  intros Hcalls Hx. unfold setup_calls in *.
  repeat match goal with
         | H : Forall _ (_ :: _) |- _ => apply Forall_cons in H as [? H]
         end.
  split; run_setup; rewrite <- ?(assoc_L (++)); simpl;
    rewrite ?drop_app_length; done.
Qed.

End Startup.

(** ** The statements at sample inputs *)

Lemma uuid_sample_distinct : draws_distinct uuid_sample.
Proof.
  intros i j H. unfold uuid_sample in H.
  apply (inj (String.app _)) in H. by apply (inj pretty) in H.
Qed.

Lemma sessions_from_draws_world0 uuid4_draw : sessions_from_draws uuid4_draw world0.
Proof. intros k Hk. simpl in Hk. set_solver. Qed.

Lemma C1_witness :
  (orchestrator backend_conclusive "How many students enrolled in 2022?"
     "webapp-user" "s-1" world0).1 = Ret (Some ENROLLED)
  ∧ search_invocations
      (performed (orchestrator backend_conclusive
                    "How many students enrolled in 2022?" "webapp-user" "s-1")
         world0) = 0.
Proof.
  destruct (C1_conclusive_answer_returned_unchanged backend_conclusive
              "How many students enrolled in 2022?" "webapp-user" "s-1"
              world0 ENROLLED) as (H1 & _ & H3).
  - reflexivity.
  - apply str_in_false. reflexivity.
  - split; assumption.
Defined.

Lemma C2_witness :
  orchestrator backend_no_data "What is the capital of France?"
    "webapp-user" "s-1" world0
  = search_call backend_no_data "What is the capital of France?"
      "webapp-user" "s-1" world0
  ∧ (search_call backend_no_data "What is the capital of France?"
       "webapp-user" "s-1" world0).1 = Ret (Some PARIS).
Proof.
  destruct (C2_sentinel_escalates_to_search backend_no_data
              "What is the capital of France?" "webapp-user" "s-1"
              world0 SENTINEL) as (H1 & _).
  - reflexivity.
  - apply str_in_spec. reflexivity.
  - split; [assumption | reflexivity].
Defined.

Lemma C3_witness :
  (orchestrator backend_echo "What is the capital of France?"
     "webapp-user" "s-1" world0).1 = Ret (Some NOT_ON_THE_WEB)
  ∧ search_invocations
      (performed (orchestrator backend_echo "What is the capital of France?"
                    "webapp-user" "s-1") world0) = 1.
Proof.
  destruct (C3_at_most_one_escalation backend_echo
              "What is the capital of France?" "webapp-user" "s-1" world0)
    as [_ H].
  apply (H SENTINEL NOT_ON_THE_WEB);
    try reflexivity; apply str_in_spec; reflexivity.
Defined.


Lemma C5_witness :
  performed
    (call_agent_async backend_conclusive
       "How many students enrolled in 2022?" data_runner "webapp-user" "s-1")
    world0
  = [ ARunAsync data_runner "webapp-user" "s-1"
        (user_content "How many students enrolled in 2022?");
      ANext data_runner (text_event false "Working on it");
      ANext data_runner (text_event true ENROLLED) ]
  ∧ (call_agent_async backend_conclusive "How many students enrolled in 2022?"
       data_runner "webapp-user" "s-1" world0).1 = Ret (Some ENROLLED).
Proof.
  destruct (C5_first_terminal_event_text backend_conclusive
              "How many students enrolled in 2022?" data_runner "webapp-user"
              "s-1" world0 [text_event false "Working on it"]
              (text_event true ENROLLED)
              (Yield (text_event true "late") StopAsyncIteration))
    as (H1 & H2 & _).
  - repeat constructor.
  - reflexivity.
  - reflexivity.
  - split; [assumption|].
    apply (H2 {| role := Some "model";
                 parts := Some [ {| text := Some ENROLLED |} ] |}
              {| text := Some ENROLLED |} []); reflexivity.
Defined.

(** C5 as the specification words it fails on a terminal event without
    content: the adapter returns the placeholder, which is not the text of
    that event (it has none). *)
Lemma C5_counterexample :
  backend_contentless world0 data_runner "webapp-user" "s-1"
    (user_content "How many students enrolled in 2022?")
  = yields [] (Yield empty_final_event StopAsyncIteration)
  ∧ is_final_response empty_final_event = true
  ∧ (call_agent_async backend_contentless
       "How many students enrolled in 2022?" data_runner "webapp-user" "s-1"
       world0).1 = Ret (Some placeholder)
  ∧ (call_agent_async backend_contentless
       "How many students enrolled in 2022?" data_runner "webapp-user" "s-1"
       world0).1 ≠ Ret (event_text empty_final_event).
Proof. repeat split; try reflexivity. discriminate. Qed.

Lemma C10_witness :
  (call_agent_async backend_contentless "How many students enrolled in 2022?"
     data_runner "webapp-user" "s-1" world0).1 = Ret (Some placeholder).
Proof.
  apply (C10_contentless_terminal_event_gives_placeholder backend_contentless
           "How many students enrolled in 2022?" data_runner "webapp-user"
           "s-1" world0 [] empty_final_event StopAsyncIteration).
  - constructor.
  - reflexivity.
  - left. reflexivity.
  - reflexivity.
Defined.

(** C6 as the specification words it fails when the backend raises: the
    exception reaches the caller of [call_agent]. *)
Lemma C6_counterexample :
  (call_agent uuid_sample backend_unavailable
     "How many students enrolled in 2022?" world0).1
  = Exc (Exception "ServerError" "503 UNAVAILABLE")
  ∧ ¬ ∃ answer : string,
        (call_agent uuid_sample backend_unavailable
           "How many students enrolled in 2022?" world0).1
        = Ret (Some answer).
Proof. split; [reflexivity | intros [answer H]; discriminate]. Qed.

Lemma C6_witness :
  (call_agent uuid_sample backend_no_data "What is the capital of France?"
     world0).1 = Ret (Some PARIS)
  ∧ (call_agent uuid_sample backend_unavailable
       "What is the capital of France?" world0).1
    = Exc (Exception "ServerError" "503 UNAVAILABLE").
Proof.
  split.
  - destruct (C6_string_result_or_propagated_exception uuid_sample
                backend_no_data "What is the capital of France?" world0)
      as (_ & H & _).
    apply (H SENTINEL PARIS); try reflexivity.
    apply str_in_spec. reflexivity.
  - destruct (C6_string_result_or_propagated_exception uuid_sample
                backend_unavailable "What is the capital of France?" world0)
      as (_ & _ & H & _).
    apply H. reflexivity.
Defined.

Lemma C7_witness :
  ((APP_NAME, "webapp-user", uuid_sample 0) ∉ sessions world0)
  ∧ sessions (call_agent uuid_sample backend_no_data
                "What is the capital of France?" world0).2
    = {[ (APP_NAME, "webapp-user", uuid_sample 0) ]} ∪ sessions world0.
Proof.
  destruct (C7_one_fresh_session_per_call uuid_sample backend_no_data
              "What is the capital of France?" world0
              uuid_sample_distinct (sessions_from_draws_world0 uuid_sample))
    as (H1 & _ & H3 & _).
  split; assumption.
Defined.

Lemma C9_witness :
  (app_script uuid_sample setup_no_credentials backend_conclusive
     (Some "How many students enrolled in 2022?") world0).1 = Exc SystemExit
  ∧ performed
      (app_script uuid_sample setup_no_credentials backend_conclusive
         (Some "How many students enrolled in 2022?")) world0
    = [ASetup StorageClient].
Proof.
  destruct (C9_setup_failure_terminates uuid_sample setup_no_credentials
              backend_conclusive (Some "How many students enrolled in 2022?")
              world0 [] StorageClient
              (tail (setup_calls uuid_sample world0))
              (Exception "DefaultCredentialsError"
                 "Your default credentials were not found."))
    as (H1 & H2 & _).
  - reflexivity.
  - constructor.
  - reflexivity.
  - split; assumption.
Defined.

(** ** The scenarios of the specification, evaluated *)

(** The instruction of the Data-Agent names the token the orchestrator
    looks for. *)
Example instruction_names_sentinel :
  contains_substring SENTINEL (instruction (agent data_runner)).
Proof. apply str_in_spec. reflexivity. Qed.

Example scenario_enrolled :
  (call_agent uuid_sample backend_conclusive
     "How many students enrolled in 2022?" world0).1 = Ret (Some ENROLLED).
Proof. reflexivity. Qed.

Example scenario_capital :
  (call_agent uuid_sample backend_no_data
     "What is the capital of France?" world0).1 = Ret (Some PARIS).
Proof. reflexivity. Qed.

(** A Data-Agent without terminal event: the placeholder has no sentinel
    and is returned as the final answer, without escalation. *)
Example scenario_no_terminal_event :
  (call_agent uuid_sample backend_silent
     "What is the capital of France?" world0).1 = Ret (Some placeholder)
  ∧ search_invocations
      (performed (call_agent uuid_sample backend_silent
                    "What is the capital of France?") world0) = 0.
Proof. split; reflexivity. Qed.

(** One run of the script with a working setup. *)
Example script_run :
  let run := app_script uuid_sample setup_ok backend_no_data
               (Some "What is the capital of France?") world0 in
  run.1 = Ret tt
  ∧ messages run.2 = [ ("user", Some "What is the capital of France?");
                       ("assistant", Some PARIS) ]
  ∧ STAGING_BUCKET run.2 = Some "agent-engine-staging-6f1c2a9e51d3"
  ∧ environ run.2 !! "GOOGLE_GENAI_USE_VERTEXAI" = Some "true"
  ∧ elements (sessions run.2) = [ (APP_NAME, "webapp-user", uuid_sample 1) ].
Proof. vm_compute. repeat split. Qed.

(** A terminal event whose first part carries no text makes the adapter
    return [None]; the orchestrator's membership test then raises. *)
Example data_answer_without_text :
  let no_text :=
    {| is_final_response := true;
       content := Some {| role := Some "model";
                          parts := Some [ {| text := None |} ] |} |} in
  (call_agent uuid_sample
     (per_agent (Yield no_text StopAsyncIteration) (answering PARIS))
     "What is the capital of France?" world0).1 = Exc TypeError.
Proof. reflexivity. Qed.

(** ** Further properties of the adapter *)




Section AdapterFacts.

Variable backend : World → Runner → string → string → Content → stream.

(** X1.  The answer of [call_agent_async] is decided by the first terminal
    event alone: two invocations whose streams have the same first
    terminal event return the same value, whatever partial events come
    before it and whatever follows it. *)
Theorem adapter_answer_decided_by_first_terminal_event
    query1 query2 runner1 runner2 user1 user2 session1 session2 w1 w2
    pre1 pre2 e rest1 rest2 :
  Forall non_final pre1 →
  Forall non_final pre2 →
  is_final_response e = true →
  backend w1 runner1 user1 session1 (user_content query1)
    = yields pre1 (Yield e rest1) →
  backend w2 runner2 user2 session2 (user_content query2)
    = yields pre2 (Yield e rest2) →
  (call_agent_async backend query1 runner1 user1 session1 w1).1
  = (call_agent_async backend query2 runner2 user2 session2 w2).1.
Proof.
  intros H1 H2 He Hs1 Hs2. rewrite !call_agent_async_run; simpl.
  rewrite Hs1, Hs2, !async_for_value_yields by done. simpl. by rewrite He.
Qed.

(** X2.  When the stream raises before any terminal event,
    [call_agent_async] raises the same exception instead of returning the
    placeholder; the events before the failure have been read. *)
Theorem adapter_propagates_stream_exception
    query runner user_id session_id w pre x :
  Forall non_final pre →
  backend w runner user_id session_id (user_content query)
    = yields pre (Throw x) →
  (call_agent_async backend query runner user_id session_id w).1 = Exc x
  ∧ performed (call_agent_async backend query runner user_id session_id) w
    = ARunAsync runner user_id session_id (user_content query)
        :: map (ANext runner) pre.
Proof.
  intros Hpre Hs. split.
  - rewrite call_agent_async_run; simpl.
    by rewrite Hs, async_for_value_yields.
  - apply performed_app. rewrite call_agent_async_run; simpl.
    rewrite Hs, async_for_events_yields by done. simpl.
    by rewrite app_nil_r.
Qed.

End AdapterFacts.

(** ** Further properties of the orchestrator *)

Lemma printed_app {A} (m : M A) w delta :
  stdout (m w).2 = stdout w ++ delta → printed m w = delta.
Proof. unfold printed. intros ->. by rewrite drop_app_length. Qed.

Lemma data_invocations_app t1 t2 :
  data_invocations (t1 ++ t2) = (data_invocations t1 + data_invocations t2)%nat.
Proof. unfold data_invocations. by rewrite filter_app, length_app. Qed.

Lemma agent_runs_app t1 t2 :
  agent_runs (t1 ++ t2) = (agent_runs t1 + agent_runs t2)%nat.
Proof. unfold agent_runs. by rewrite filter_app, length_app. Qed.

Lemma data_invocations_next runner es :
  data_invocations (map (ANext runner) es) = 0%nat.
Proof. unfold data_invocations. by induction es. Qed.

Lemma agent_runs_next runner es : agent_runs (map (ANext runner) es) = 0%nat.
Proof. unfold agent_runs. by induction es. Qed.

Lemma agent_runs_invocation runner query user_id session_id es :
  agent_runs (invocation runner query user_id session_id es) = 1%nat.
Proof.
  unfold invocation. change (?a :: ?l) with ([a] ++ l).
  by rewrite agent_runs_app, agent_runs_next.
Qed.

Lemma data_invocations_data query user_id session_id es :
  data_invocations (invocation data_runner query user_id session_id es) = 1%nat.
Proof.
  unfold invocation. change (?a :: ?l) with ([a] ++ l).
  by rewrite data_invocations_app, data_invocations_next.
Qed.

Lemma data_invocations_search query user_id session_id es :
  data_invocations (invocation search_runner query user_id session_id es)
  = 0%nat.
Proof.
  unfold invocation. change (?a :: ?l) with ([a] ++ l).
  by rewrite data_invocations_app, data_invocations_next.
Qed.


Section OrchestratorFacts.

Variable backend : World → Runner → string → string → Content → stream.

Lemma stdout_call_agent_async query runner user_id session_id w :
  stdout (call_agent_async backend query runner user_id session_id w).2
  = stdout w.
Proof. by rewrite call_agent_async_run. Qed.

(** What one call of [orchestrator] prints. *)
Lemma printed_orchestrator query user_id session_id w :
  printed (orchestrator backend query user_id session_id) w
  = LINE_QUERY session_id query :: LINE_STEP1 session_id
      :: match (data_call backend query user_id session_id w).1 with
         | Ret (Some A) =>
             if str_in SENTINEL A
             then [LINE_SIGNAL session_id; LINE_STEP2 session_id]
             else [LINE_SUCCESS session_id]
         | _ => []
         end.
Proof.
  apply printed_app. rewrite orchestrator_run.
  assert (stdout (data_call backend query user_id session_id w).2
          = stdout w ++ [LINE_QUERY session_id query; LINE_STEP1 session_id])
    as Hd.
  { unfold data_call. rewrite stdout_call_agent_async. simpl.
    by rewrite <- (assoc_L (++)). }
  destruct (data_call backend query user_id session_id w).1 as [[A|]|x];
    simpl; try exact Hd.
  destruct (str_in SENTINEL A); simpl.
  - unfold search_call. rewrite stdout_call_agent_async. simpl.
    rewrite Hd. by rewrite <- !(assoc_L (++)).
  - rewrite Hd. by rewrite <- !(assoc_L (++)).
Qed.

(** X3.  One call of [orchestrator] invokes the Data-Agent exactly once,
    whatever happens: a stream that raises or that gives no answer is not
    tried again.  The call makes one invocation more for the Search-Agent
    when it escalates, so never more than two. *)
Theorem data_agent_invoked_exactly_once query user_id session_id w :
  let actions := performed (orchestrator backend query user_id session_id) w in
  data_invocations actions = 1%nat
  ∧ agent_runs actions = (1 + search_invocations actions)%nat
  ∧ (agent_runs actions ≤ 2)%nat.
Proof.
  simpl. rewrite performed_orchestrator.
  rewrite data_invocations_app, agent_runs_app, search_invocations_app.
  rewrite data_invocations_data, agent_runs_invocation,
    search_invocations_data.
  destruct (data_call backend query user_id session_id w).1 as [[A|]|x];
    try (cbn; lia).
  destruct (str_in SENTINEL A); [|cbn; lia].
  rewrite data_invocations_search, agent_runs_invocation,
    search_invocations_search. lia.
Qed.

(** X4.  When the Data-Agent's stream ends without a terminal event, the
    orchestrator takes the placeholder for a conclusive answer: it prints
    the success line, returns the placeholder and does not consult the
    Search-Agent. *)
Theorem silent_data_agent_is_not_escalated query user_id session_id w es :
  Forall non_final es →
  backend (at_step1 query session_id w) data_runner user_id session_id
    (user_content query) = yields es StopAsyncIteration →
  (orchestrator backend query user_id session_id w).1 = Ret (Some placeholder)
  ∧ search_invocations
      (performed (orchestrator backend query user_id session_id) w) = 0%nat
  ∧ printed (orchestrator backend query user_id session_id) w
    = [LINE_QUERY session_id query; LINE_STEP1 session_id;
       LINE_SUCCESS session_id].
Proof.
  intros Hes Hs.
  assert ((data_call backend query user_id session_id w).1
          = Ret (Some placeholder)) as Hd.
  { unfold data_call. rewrite call_agent_async_run; simpl.
    by rewrite Hs, async_for_value_yields. }
  rewrite printed_orchestrator, performed_orchestrator, orchestrator_run, Hd.
  change (str_in SENTINEL placeholder) with false. simpl.
  rewrite app_nil_r. split; [done|split; [|done]].
  apply search_invocations_data.
Qed.

(** X5.  When the first part of the Data-Agent's terminal event carries no
    text, the adapter hands [None] to the orchestrator, whose membership
    test raises [TypeError]: nothing is returned, the Search-Agent is not
    consulted and neither outcome line is printed. *)
Theorem data_answer_without_text_raises
    query user_id session_id w pre e rest c p ps :
  Forall non_final pre →
  is_final_response e = true →
  content e = Some c →
  parts c = Some (p :: ps) →
  text p = None →
  backend (at_step1 query session_id w) data_runner user_id session_id
    (user_content query) = yields pre (Yield e rest) →
  (orchestrator backend query user_id session_id w).1 = Exc TypeError
  ∧ search_invocations
      (performed (orchestrator backend query user_id session_id) w) = 0%nat
  ∧ printed (orchestrator backend query user_id session_id) w
    = [LINE_QUERY session_id query; LINE_STEP1 session_id].
Proof.
  intros Hpre He Hc Hp Ht Hs.
  assert ((data_call backend query user_id session_id w).1 = Ret None) as Hd.
  { unfold data_call. rewrite call_agent_async_run; simpl.
    rewrite Hs, async_for_value_yields by done. simpl. rewrite He.
    by rewrite (final_text_parts e c p ps), Ht. }
  rewrite printed_orchestrator, performed_orchestrator, orchestrator_run, Hd.
  simpl. rewrite app_nil_r. split; [done|split; [|done]].
  apply search_invocations_data.
Qed.

(** X6.  After an escalation, a Search-Agent whose stream ends without a
    terminal event makes the orchestrator return the placeholder as the
    final answer; there is no third attempt. *)
Theorem escalation_to_silent_search_gives_placeholder
    query user_id session_id w A es :
  (data_call backend query user_id session_id w).1 = Ret (Some A) →
  contains_substring SENTINEL A →
  Forall non_final es →
  backend (at_step2 backend query user_id session_id w) search_runner user_id
    session_id (user_content query) = yields es StopAsyncIteration →
  (orchestrator backend query user_id session_id w).1 = Ret (Some placeholder)
  ∧ agent_runs
      (performed (orchestrator backend query user_id session_id) w) = 2%nat.
Proof.
  intros Hd HA Hes Hs. apply str_in_spec in HA.
  rewrite performed_orchestrator, orchestrator_run, Hd, HA.
  rewrite agent_runs_app, !agent_runs_invocation. split; [|done].
  unfold search_call. rewrite call_agent_async_run; simpl.
  by rewrite Hs, async_for_value_yields.
Qed.


End OrchestratorFacts.

(** ** Further properties of the startup and of the script *)



Section StartupFacts.

Variable uuid4_draw : nat → string.
Variable setup_outcome : SetupStep → option exn.
Variable backend : World → Runner → string → string → Content → stream.

Lemma external_outcome step w :
  external setup_outcome step w
  = (match setup_outcome step with None => Ret tt | Some x => Exc x end,
     with_trace (λ t, t ++ [ASetup step]) w).
Proof. unfold external, bind, log; simpl. by destruct (setup_outcome step). Qed.

Ltac run_module :=
  unfold app_script, agent_module, setup, try_except_Exception, bind,
    performed, printed, uuid4, print, set_STAGING_BUCKET, setenv, exit, raise,
    ret, append_message;
  simpl;
  repeat (rewrite external_outcome; simpl;
          repeat match goal with
                 | H : setup_outcome _ = _ |- _ => rewrite H; simpl
                 end).

Ltac split_outcomes :=
  repeat match goal with
         | H : Forall _ (_ :: _) |- _ => apply Forall_cons in H as [? H]
         end.

(** The module body when every fallible call succeeds. *)
Lemma agent_module_success w :
  setup_succeeds uuid4_draw setup_outcome w →
  let run := agent_module uuid4_draw setup_outcome w in
  let bucket := bucket_name_of (uuid4_draw (uuid_next w)) in
  run.1 = Ret tt
  ∧ trace run.2
    = trace w ++ map ASetup (setup_calls uuid4_draw w ++ [AuthDefaultTools])
  ∧ stdout run.2
    = stdout w
      ++ [ "Initializing GCP services...";
           "Successfully created and using staging bucket: gs://" +:+ bucket;
           "Vertex AI SDK initialized.";
           "Set environment variables for GenAI to use Vertex AI.";
           "BigQuery authentication and connection successful.";
           "Initialization complete." ]
  ∧ STAGING_BUCKET run.2 = Some bucket
  ∧ environ run.2
    = <["GOOGLE_CLOUD_LOCATION" := LOCATION]>
        (<["GOOGLE_CLOUD_PROJECT" := PROJECT_ID]>
           (<["GOOGLE_GENAI_USE_VERTEXAI" := "true"]> (environ w)))
  ∧ uuid_next run.2 = S (uuid_next w)
  ∧ sessions run.2 = sessions w
  ∧ messages run.2 = messages w.
Proof.
  intros Hok. unfold setup_succeeds, setup_calls in Hok. simpl in Hok.
  split_outcomes. run_module.
  rewrite <- !(assoc_L (++)). done.
Qed.

(** X9.  When every call of the setup succeeds, importing the module makes
    the six cloud calls of the [try] block and the credential lookup of the
    tool configuration, in program order; it records the staging bucket,
    sets the three environment variables that select Vertex AI and leaves
    every other variable as it was; it draws one identifier and creates no
    session. *)
Theorem module_import_configures_process w :
  setup_succeeds uuid4_draw setup_outcome w →
  let run := agent_module uuid4_draw setup_outcome w in
  let bucket := bucket_name_of (uuid4_draw (uuid_next w)) in
  run.1 = Ret tt
  ∧ performed (agent_module uuid4_draw setup_outcome) w
    = map ASetup (setup_calls uuid4_draw w ++ [AuthDefaultTools])
  ∧ STAGING_BUCKET run.2 = Some bucket
  ∧ environ run.2 !! "GOOGLE_GENAI_USE_VERTEXAI" = Some "true"
  ∧ environ run.2 !! "GOOGLE_CLOUD_PROJECT" = Some PROJECT_ID
  ∧ environ run.2 !! "GOOGLE_CLOUD_LOCATION" = Some LOCATION
  ∧ (∀ k, k ≠ "GOOGLE_GENAI_USE_VERTEXAI" → k ≠ "GOOGLE_CLOUD_PROJECT" →
          k ≠ "GOOGLE_CLOUD_LOCATION" →
          environ run.2 !! k = environ w !! k)
  ∧ uuid_next run.2 = S (uuid_next w)
  ∧ sessions run.2 = sessions w.
Proof.
  intros Hok.
  destruct (agent_module_success w Hok)
    as (Hr & Ht & _ & Hb & He & Hu & Hs & _).
  simpl in *. rewrite He.
  repeat split; try done.
  - by apply performed_app.
  - by simplify_map_eq.
  - by simplify_map_eq.
  - by simplify_map_eq.
  - intros k H1 H2 H3. by simplify_map_eq.
Qed.

(** X10.  The second [google.auth.default()], at line 61, is outside the
    [try]: when it fails after a setup that succeeded, the exception ends
    the import as it is, also when it is an [Exception]; the log then ends
    with [Initialization complete.] and holds no FATAL line. *)
Theorem tool_configuration_failure_is_not_guarded w x :
  Forall (λ s, setup_outcome s = None) (setup_calls uuid4_draw w) →
  setup_outcome AuthDefaultTools = Some x →
  let run := agent_module uuid4_draw setup_outcome w in
  run.1 = Exc x
  ∧ last (stdout run.2) = Some "Initialization complete."
  ∧ (FATAL x ∉ printed (agent_module uuid4_draw setup_outcome) w)
  ∧ performed (agent_module uuid4_draw setup_outcome) w
    = map ASetup (setup_calls uuid4_draw w ++ [AuthDefaultTools]).
Proof.
  intros Hcalls Hx. unfold setup_calls in *. split_outcomes.
  repeat split; run_module; rewrite <- ?(assoc_L (++)); simpl;
    rewrite ?drop_app_length; try done.
  - by rewrite last_app.
  - unfold FATAL. rewrite !elem_of_cons, elem_of_nil.
    intros [Hl|[Hl|[Hl|[Hl|[Hl|[Hl|[]]]]]]]; discriminate.
Qed.


Lemma app_script_after_import user_query w :
  setup_succeeds uuid4_draw setup_outcome w →
  app_script uuid4_draw setup_outcome backend user_query w
  = match user_query with
    | None | Some "" => ret tt
    | Some q =>
        append_message ("user", Some q) ;;;
        response <- call_agent uuid4_draw backend q ;;
        append_message ("assistant", response)
    end (after_import uuid4_draw setup_outcome w).
Proof.
  intros Hok. destruct (agent_module_success w Hok) as (Hr & _).
  simpl in Hr. unfold app_script, after_import. unfold bind at 1.
  destruct (agent_module uuid4_draw setup_outcome w) as [r w1].
  simpl in *. by rewrite Hr.
Qed.

Lemma call_agent_messages query w :
  messages (call_agent uuid4_draw backend query w).2 = messages w.
Proof.
  rewrite call_agent_run.
  by destruct (orchestrator_frame backend query "webapp-user"
                 (session_of uuid4_draw w) (in_session uuid4_draw w))
    as (_ & _ & ->).
Qed.

Lemma app_script_submit query w :
  setup_succeeds uuid4_draw setup_outcome w →
  query ≠ "" →
  app_script uuid4_draw setup_outcome backend (Some query) w
  = match call_agent uuid4_draw backend query
            (at_submit uuid4_draw setup_outcome query w) with
    | (Ret response, w2) =>
        (Ret tt, with_messages (λ l, l ++ [("assistant", response)]) w2)
    | (Exc x, w2) => (Exc x, w2)
    end.
Proof.
  intros Hok Hq. rewrite app_script_after_import by done.
  destruct query as [|a query]; [done|].
  unfold bind, append_message, at_submit. simpl.
  by destruct (call_agent uuid4_draw backend (String a query) _) as [[r|x] w2].
Qed.

Lemma messages_at_submit query w :
  setup_succeeds uuid4_draw setup_outcome w →
  messages (at_submit uuid4_draw setup_outcome query w)
  = messages w ++ [("user", Some query)].
Proof.
  intros Hok.
  destruct (agent_module_success w Hok) as (_ & _ & _ & _ & _ & _ & _ & Hm).
  simpl in Hm. unfold at_submit, after_import. simpl. by rewrite Hm.
Qed.

(** X12.  A run of the script without input, or with the empty string as
    input, stops after the import: no message is recorded, no session is
    created and no agent is invoked. *)
Theorem script_without_input_asks_nothing user_query w :
  setup_succeeds uuid4_draw setup_outcome w →
  user_query = None ∨ user_query = Some "" →
  let run := app_script uuid4_draw setup_outcome backend user_query w in
  run.1 = Ret tt
  ∧ messages run.2 = messages w
  ∧ sessions run.2 = sessions w
  ∧ Forall (λ a, is_agent_invocation a = false ∧ is_session_creation a = false)
      (performed (app_script uuid4_draw setup_outcome backend user_query) w).
Proof.
  intros Hok Hq. simpl.
  destruct (agent_module_success w Hok)
    as (_ & Ht & _ & _ & _ & _ & Hs & Hm). simpl in *.
  assert (app_script uuid4_draw setup_outcome backend user_query w
          = (Ret tt, after_import uuid4_draw setup_outcome w)) as Hrun.
  { rewrite app_script_after_import by done. by destruct Hq as [-> | ->]. }
  unfold performed. rewrite Hrun. unfold after_import. simpl.
  rewrite Ht, drop_app_length. repeat split; try done.
  by repeat constructor.
Qed.

(** X13.  A run of the script with a question records the question and then
    the value [call_agent] returns, in this order, after the messages that
    were there. *)
Theorem script_records_question_then_answer query w response :
  setup_succeeds uuid4_draw setup_outcome w →
  query ≠ "" →
  (call_agent uuid4_draw backend query
     (at_submit uuid4_draw setup_outcome query w)).1 = Ret response →
  let run := app_script uuid4_draw setup_outcome backend (Some query) w in
  run.1 = Ret tt
  ∧ messages run.2
    = messages w ++ [ ("user", Some query); ("assistant", response) ].
Proof.
  intros Hok Hq Hcall. simpl. rewrite app_script_submit by done.
  pose proof (call_agent_messages query
                (at_submit uuid4_draw setup_outcome query w)) as Hc.
  rewrite messages_at_submit in Hc by done.
  destruct (call_agent uuid4_draw backend query _) as [r w2].
  simpl in *. subst r. simpl. rewrite Hc.
  by rewrite <- (assoc_L (++)).
Qed.

(** X14.  When [call_agent] raises, the script ends by the same exception
    with the question recorded and no answer after it. *)
Theorem script_failure_leaves_question_unanswered query w x :
  setup_succeeds uuid4_draw setup_outcome w →
  query ≠ "" →
  (call_agent uuid4_draw backend query
     (at_submit uuid4_draw setup_outcome query w)).1 = Exc x →
  let run := app_script uuid4_draw setup_outcome backend (Some query) w in
  run.1 = Exc x
  ∧ messages run.2 = messages w ++ [ ("user", Some query) ].
Proof.
  intros Hok Hq Hcall. simpl. rewrite app_script_submit by done.
  pose proof (call_agent_messages query
                (at_submit uuid4_draw setup_outcome query w)) as Hc.
  rewrite messages_at_submit in Hc by done.
  destruct (call_agent uuid4_draw backend query _) as [r w2].
  simpl in *. by subst r.
Qed.

(** X15.  The orchestrator works on the session it is given and on nothing
    else of the process: it creates and removes no session, draws no
    identifier, and leaves the environment, the staging bucket and the
    recorded messages as they are, whether it returns or raises. *)
Theorem orchestrator_leaves_process_state query user_id session_id w :
  let w' := (orchestrator backend query user_id session_id w).2 in
  sessions w' = sessions w
  ∧ uuid_next w' = uuid_next w
  ∧ environ w' = environ w
  ∧ STAGING_BUCKET w' = STAGING_BUCKET w
  ∧ messages w' = messages w.
Proof.
  simpl. rewrite orchestrator_run.
  assert (∀ runner w0,
            let w1 := (call_agent_async backend query runner user_id
                         session_id w0).2 in
            sessions w1 = sessions w0 ∧ uuid_next w1 = uuid_next w0
            ∧ environ w1 = environ w0
            ∧ STAGING_BUCKET w1 = STAGING_BUCKET w0
            ∧ messages w1 = messages w0) as Hframe.
  { intros runner w0. simpl. by rewrite call_agent_async_run. }
  pose proof (Hframe data_runner (at_step1 query session_id w)) as Hd.
  pose proof (Hframe search_runner
                (at_step2 backend query user_id session_id w)) as Hs.
  simpl in Hd, Hs.
  fold (data_call backend query user_id session_id w) in Hd.
  fold (search_call backend query user_id session_id w) in Hs.
  destruct (data_call backend query user_id session_id w).1 as [[A|]|x];
    simpl; try exact Hd.
  destruct (str_in SENTINEL A); simpl; [|exact Hd].
  destruct Hs as (-> & -> & -> & -> & ->). exact Hd.
Qed.

End StartupFacts.

(** ** The further properties at sample inputs *)

Lemma adapter_answer_decided_by_first_terminal_event_witness :
  (call_agent_async backend_same_answer "What is the capital of France?"
     data_runner "webapp-user" "s-1" world0).1
  = (call_agent_async backend_same_answer "And of Italy?"
       search_runner "webapp-user" "s-2" world0).1.
Proof.
  apply (adapter_answer_decided_by_first_terminal_event backend_same_answer
           "What is the capital of France?" "And of Italy?"
           data_runner search_runner "webapp-user" "webapp-user" "s-1" "s-2"
           world0 world0 [text_event false "Working on it"] []
           (text_event true PARIS)
           (Yield (text_event true "late") StopAsyncIteration)
           (Throw (Exception "ServerError" "503 UNAVAILABLE"))).
  - repeat constructor.
  - constructor.
  - reflexivity.
  - reflexivity.
  - reflexivity.
Defined.

Lemma adapter_propagates_stream_exception_witness :
  (call_agent_async backend_broken_stream "What is the capital of France?"
     data_runner "webapp-user" "s-1" world0).1
  = Exc (Exception "ServerError" "503 UNAVAILABLE").
Proof.
  destruct (adapter_propagates_stream_exception backend_broken_stream
              "What is the capital of France?" data_runner "webapp-user" "s-1"
              world0 [text_event false "Working on it"]
              (Exception "ServerError" "503 UNAVAILABLE")) as [H _].
  - repeat constructor.
  - reflexivity.
  - exact H.
Defined.

Lemma silent_data_agent_is_not_escalated_witness :
  (orchestrator backend_silent "What is the capital of France?"
     "webapp-user" "s-1" world0).1 = Ret (Some placeholder)
  ∧ search_invocations
      (performed (orchestrator backend_silent "What is the capital of France?"
                    "webapp-user" "s-1") world0) = 0%nat.
Proof.
  destruct (silent_data_agent_is_not_escalated backend_silent
              "What is the capital of France?" "webapp-user" "s-1" world0
              [text_event false "Working on it"]) as (H1 & H2 & _).
  - repeat constructor.
  - reflexivity.
  - split; assumption.
Defined.

Lemma data_answer_without_text_raises_witness :
  (orchestrator backend_no_text "What is the capital of France?"
     "webapp-user" "s-1" world0).1 = Exc TypeError.
Proof.
  destruct (data_answer_without_text_raises backend_no_text
              "What is the capital of France?" "webapp-user" "s-1" world0
              [] no_text_event StopAsyncIteration
              {| role := Some "model"; parts := Some [ {| text := None |} ] |}
              {| text := None |} []) as (H & _).
  - constructor.
  - reflexivity.
  - reflexivity.
  - reflexivity.
  - reflexivity.
  - reflexivity.
  - exact H.
Defined.

Lemma escalation_to_silent_search_gives_placeholder_witness :
  (orchestrator backend_search_silent "What is the capital of France?"
     "webapp-user" "s-1" world0).1 = Ret (Some placeholder).
Proof.
  destruct (escalation_to_silent_search_gives_placeholder
              backend_search_silent "What is the capital of France?"
              "webapp-user" "s-1" world0 SENTINEL
              [text_event false "Searching"]) as (H & _).
  - reflexivity.
  - apply str_in_spec. reflexivity.
  - repeat constructor.
  - reflexivity.
  - exact H.
Defined.


Lemma setup_ok_succeeds uuid4_draw w : setup_succeeds uuid4_draw setup_ok w.
Proof. unfold setup_succeeds, setup_calls. simpl. by repeat constructor. Qed.

Lemma module_import_configures_process_witness :
  (agent_module uuid_sample setup_ok world0).1 = Ret tt
  ∧ STAGING_BUCKET (agent_module uuid_sample setup_ok world0).2
    = Some (bucket_name_of (uuid_sample 0)).
Proof.
  destruct (module_import_configures_process uuid_sample setup_ok world0
              (setup_ok_succeeds uuid_sample world0)) as (H1 & _ & H3 & _).
  split; assumption.
Defined.

Lemma tool_configuration_failure_is_not_guarded_witness :
  (agent_module uuid_sample setup_tools_auth_down world0).1
  = Exc (Exception "DefaultCredentialsError"
           "Your default credentials were not found.").
Proof.
  destruct (tool_configuration_failure_is_not_guarded uuid_sample
              setup_tools_auth_down world0
              (Exception "DefaultCredentialsError"
                 "Your default credentials were not found.")) as (H & _).
  - unfold setup_calls. simpl. by repeat constructor.
  - reflexivity.
  - exact H.
Defined.


Lemma script_without_input_asks_nothing_witness :
  (app_script uuid_sample setup_ok backend_no_data (Some "") world0).1 = Ret tt
  ∧ messages (app_script uuid_sample setup_ok backend_no_data (Some "")
                world0).2 = [].
Proof.
  destruct (script_without_input_asks_nothing uuid_sample setup_ok
              backend_no_data (Some "") world0
              (setup_ok_succeeds uuid_sample world0)) as (H1 & H2 & _).
  - right. reflexivity.
  - split; assumption.
Defined.

Lemma script_records_question_then_answer_witness :
  messages (app_script uuid_sample setup_ok backend_no_data
              (Some "What is the capital of France?") world0).2
  = [ ("user", Some "What is the capital of France?");
      ("assistant", Some PARIS) ].
Proof.
  destruct (script_records_question_then_answer uuid_sample setup_ok
              backend_no_data "What is the capital of France?" world0
              (Some PARIS) (setup_ok_succeeds uuid_sample world0))
    as (_ & H).
  - discriminate.
  - vm_compute. reflexivity.
  - exact H.
Defined.

Lemma script_failure_leaves_question_unanswered_witness :
  messages (app_script uuid_sample setup_ok backend_unavailable
              (Some "What is the capital of France?") world0).2
  = [ ("user", Some "What is the capital of France?") ].
Proof.
  destruct (script_failure_leaves_question_unanswered uuid_sample setup_ok
              backend_unavailable "What is the capital of France?" world0
              (Exception "ServerError" "503 UNAVAILABLE")
              (setup_ok_succeeds uuid_sample world0)) as (_ & H).
  - discriminate.
  - vm_compute. reflexivity.
  - exact H.
Defined.
